(** * ims_common: JWT authentication middleware and its configuration

    A shallow embedding of [ims_common/config.py] and
    [ims_common/jwt_middleware.py].

    The Python code is effectful: it logs, reads the public key file, calls
    the framework's bearer extractor, the JWT library and the downstream
    handler, and raises exceptions.  Effects are modelled by a small
    trace-and-exception monad [M]; the collaborators that live outside the
    repository (FastAPI's [HTTPBearer], PyJWT's [jwt.decode], the file system,
    pydantic's coercion of [bool]) are operations of an [Externals] interface,
    so that every statement about the middleware holds for any behaviour of
    those libraries.  Concrete instances of the interface are given at the end
    of the definitions and are used to run the code on concrete requests. *)

From Stdlib Require Import ZArith Ascii String.
From stdpp Require Import base option list gmap strings.

Open Scope string_scope.
Open Scope list_scope.
Open Scope Z_scope.

(** ** Python values *)

(** JSON-like values: the claims of a decoded token and the bodies of the
    responses the middleware builds. *)
#[warnings="-register-all"]
Inductive json : Type :=
| JNull
| JBool (b : bool)
| JNum (n : Z)
| JStr (s : string)
| JArr (items : list json)
| JObj (fields : list (string * json)).

(** Raw keyword arguments handed to a pydantic model. *)
Inductive pyval : Type :=
| PyNone
| PyBool (b : bool)
| PyInt (n : Z)
| PyStr (s : string).

#[global] Instance pyval_eq_dec : EqDecision pyval.
Proof. solve_decision. Defined.

(** ** Exceptions *)

(** Subclasses of Python's [Exception]: what [except Exception] catches. *)
Inductive exception : Type :=
| HTTPException (status_code : Z) (detail : json)
| FileNotFoundError (msg : string)
| OSError (msg : string)
| TypeError (msg : string)
| ValueError (msg : string)
| ValidationError (errors : list (string * string))
| DecodeError (msg : string)
| InvalidSignatureError
| ExpiredSignatureError
| InvalidAlgorithmError
| OtherException (name : string).

(** [BaseException]: [SystemExit] is raised by [sys.exit] and is not an
    [Exception]. *)
Inductive base_exception : Type :=
| Exc (e : exception)
| SystemExit (code : string).

(** ** HTTP data *)

Record Request : Type := mkRequest {
  url_path : string;
  headers : list (string * string)
}.

Record HTTPAuthorizationCredentials : Type := mkCredentials {
  scheme : string;
  credentials : string
}.

(** A response is either one the middleware builds itself
    ([JSONResponse(status_code=..., content=...)], the content being a
    dictionary) or whatever the downstream handler produced. *)
Inductive Response : Type :=
| JSONResponse (status_code : Z) (content : gmap string json)
| StreamingResponse (status_code : Z) (resp_headers : list (string * string))
    (body : string).

Definition HTTP_403_FORBIDDEN : Z := 403.
Definition HTTP_401_UNAUTHORIZED : Z := 401.

(** ** Effects *)

(** What the code does to the outside world, in program order. *)
Inductive event : Type :=
| EvOpen (path : option string)
| EvLogInfo (msg : string)
| EvLogException (msg : string) (e : exception)
| EvSecurity (request : Request)
| EvJwtDecode (token key : string) (algorithms : list (option string))
| EvCallNext (request : Request).

Inductive outcome (A : Type) : Type :=
| Return (a : A)
| Raise (e : base_exception).
Arguments Return {A} a.
Arguments Raise {A} e.

(** A computation: the events it performed and how it ended. *)
Definition M (A : Type) : Type := (list event * outcome A)%type.

Definition trace {A} (m : M A) : list event := fst m.
Definition result {A} (m : M A) : outcome A := snd m.

#[global] Instance M_ret : MRet M := fun A a => ([], Return a).

#[global] Instance M_bind : MBind M := fun A B f m =>
  match m with
  | (t, Return a) => let '(t', r) := f a in (t ++ t', r)
  | (t, Raise e) => (t, Raise e)
  end.

Definition tell (ev : event) : M unit := ([ev], Return tt).
Definition raise {A} (e : base_exception) : M A := ([], Raise e).

(** A call into a library: one event, then the library's answer. *)
Definition extern {A} (ev : event) (r : exception + A) : M A :=
  ([ev], match r with inl e => Raise (Exc e) | inr a => Return a end).

(** [try: m] with the exception, if any, handed to the [except] clauses. *)
Definition attempt {A} (m : M A) : M (base_exception + A) :=
  match m with
  | (t, Return a) => (t, Return (inr a))
  | (t, Raise e) => (t, Return (inl e))
  end.

Definition is_call_next (ev : event) : bool :=
  match ev with EvCallNext _ => true | _ => false end.
Definition is_security (ev : event) : bool :=
  match ev with EvSecurity _ => true | _ => false end.
Definition is_jwt_decode (ev : event) : bool :=
  match ev with EvJwtDecode _ _ _ => true | _ => false end.
Definition is_open (ev : event) : bool :=
  match ev with EvOpen _ => true | _ => false end.

(** How many events of a kind a trace holds. *)
Definition count (p : event → bool) (t : list event) : nat :=
  length (List.filter p t).

(** ** Collaborators outside the repository *)

Class Externals : Type := {
  (** pydantic's validation of a [bool] field: [None] when it rejects. *)
  validate_bool : pyval → option bool;
  (** [with open(path, "r", encoding="utf-8") as file: file.read()] *)
  open_read : option string → exception + string;
  (** [await security(request)], [security = HTTPBearer(auto_error=True)] *)
  security : Request → exception + HTTPAuthorizationCredentials;
  (** [jwt.decode(token, key, algorithms=...)], at the time of the call *)
  jwt_decode : string → string → list (option string)
               → exception + gmap string json
}.

(** ** config.py *)

Record AuthenticationConfig : Type := mkAuthenticationConfig {
  enabled : bool;
  public_key_path : option string;
  jwt_algorithm : option string
}.

(** A validated field value as it is stored in [info.data]. *)
Definition of_optional_str (v : option string) : pyval :=
  match v with None => PyNone | Some s => PyStr s end.

(** [v is True] *)
Definition is_True (v : pyval) : bool := bool_decide (v = PyBool true).

(** [info.data["enabled"]], read only behind ["enabled" in info.data]. *)
Definition data_enabled (info_data : gmap string pyval) : pyval :=
  default PyNone (info_data !! "enabled").

(** The field validator of [public_key_path] and [jwt_algorithm]. *)
Definition validate_optional_fields
    (field_value : option string) (info_data : gmap string pyval)
  : exception + option string :=
  if (bool_decide ("enabled" ∈ dom info_data) && is_True (data_enabled info_data))
     && bool_decide (field_value = None)
  then inl (ValueError "Field required")
  else inr field_value.

(** pydantic's validation of a value against [Optional[str]], on the values
    of [pyval]: [None] and strings pass unchanged, booleans and integers are
    refused.  ([bytes] and [bytearray], which pydantic would decode to a
    string, are not values of [pyval].) *)
Definition validate_optional_str (v : pyval) : option (option string) :=
  match v with
  | PyNone => Some None
  | PyStr s => Some (Some s)
  | _ => None
  end.

Inductive field_outcome (A : Type) : Type :=
| FieldOk (a : A)
| FieldError (msg : string)
| FieldRaise (e : exception).
Arguments FieldOk {A} a.
Arguments FieldError {A} msg.
Arguments FieldRaise {A} e.

Section Config.
Context `{Externals}.

(** [enabled: bool], a required field. *)
Definition validate_enabled (kwargs : gmap string pyval) : field_outcome bool :=
  match kwargs !! "enabled" with
  | None => FieldError "Field required"
  | Some v =>
      match validate_bool v with
      | Some b => FieldOk b
      | None => FieldError "Input should be a valid boolean"
      end
  end.

(** [Optional[str] = Field(default=None, validate_default=True)] followed
    by the field validator, which sees the fields validated so far. *)
Definition validate_optional_field
    (name : string) (kwargs info_data : gmap string pyval)
  : field_outcome (option string) :=
  match validate_optional_str (default PyNone (kwargs !! name)) with
  | None => FieldError "Input should be a valid string"
  | Some v =>
      match validate_optional_fields v info_data with
      | inr v' => FieldOk v'
      | inl (ValueError msg) => FieldError ("Value error, " +:+ msg)
      | inl e => FieldRaise e
      end
  end.

Definition record_field {A} (name : string) (to_py : A → pyval)
    (r : field_outcome A) (info_data : gmap string pyval)
  : gmap string pyval :=
  match r with
  | FieldOk a => <[name := to_py a]> info_data
  | _ => info_data
  end.

Definition field_errors {A} (name : string) (r : field_outcome A)
  : list (string * string) :=
  match r with FieldError msg => [(name, msg)] | _ => [] end.

(** [AuthenticationConfig(enabled=..., ...)] on the keyword arguments
    [kwargs]: the fields are validated in the order
    of their declaration, every error is collected, and the model is built
    only when there is none. *)
Definition AuthenticationConfig_init (kwargs : gmap string pyval)
  : exception + AuthenticationConfig :=
  let r_enabled := validate_enabled kwargs in
  let data1 := record_field "enabled" PyBool r_enabled ∅ in
  let r_key := validate_optional_field "public_key_path" kwargs data1 in
  let data2 := record_field "public_key_path" of_optional_str r_key data1 in
  let r_alg := validate_optional_field "jwt_algorithm" kwargs data2 in
  match r_enabled, r_key, r_alg with
  | FieldOk e, FieldOk k, FieldOk a =>
      inr (mkAuthenticationConfig e k a)
  | _, FieldRaise e, _ => inl e
  | _, _, FieldRaise e => inl e
  | _, _, _ =>
      inl (ValidationError (field_errors "enabled" r_enabled
                            ++ field_errors "public_key_path" r_key
                            ++ field_errors "jwt_algorithm" r_alg))
  end.

(** A field the caller left out or passed as [None]. *)
Definition not_provided (name : string) (kwargs : gmap string pyval) : Prop :=
  default PyNone (kwargs !! name) = PyNone.

(** The caller asked for [enabled] with a value pydantic reads as [True]. *)
Definition enabled_true (kwargs : gmap string pyval) : Prop :=
  ∃ v, kwargs !! "enabled" = Some v ∧ validate_bool v = Some true.

Definition non_empty (v : option string) : Prop :=
  ∃ s, v = Some s ∧ s ≠ "".
End Config.

(** ** jwt_middleware.py *)

(** The class returned by [create_jwt_middleware] is a closure over
    [PUBLIC_KEY] and [auth_config]; the record holds what it captured. *)
Record JWTMiddleware : Type := mkJWTMiddleware {
  PUBLIC_KEY : string;
  auth_config : AuthenticationConfig
}.

(** The paths [dispatch] lets through without authentication. *)
Definition exempt_paths : list string := ["/docs"; "/openapi.json"].

Definition invalid_token_response : Response :=
  JSONResponse HTTP_403_FORBIDDEN
    {[ "detail" := JStr "Invalid token or expired token" ]}.

Section Middleware.
Context `{Externals}.

Definition create_jwt_middleware (auth_config : AuthenticationConfig)
  : M JWTMiddleware :=
  let path := public_key_path auth_config in
  r ← attempt (extern (EvOpen path) (open_read path));
  match r with
  | inr content => mret (mkJWTMiddleware content auth_config)
  | inl (Exc (FileNotFoundError msg)) =>
      raise (SystemExit ("Cannot find public key: " +:+ msg))
  | inl e => raise e
  end.

Definition _is_jwt_access_token_valid
    (self : JWTMiddleware) (access_token : string) : M bool :=
  tell (EvLogInfo "Checking if JWT access token is valid");;
  let algorithms := [jwt_algorithm (auth_config self)] in
  r ← attempt (extern (EvJwtDecode access_token (PUBLIC_KEY self) algorithms)
                 (jwt_decode access_token (PUBLIC_KEY self) algorithms));
  payload ← match r with
            | inr payload => mret (Some payload)
            | inl (Exc e) =>
                tell (EvLogException "Error decoding JWT access token" e);;
                mret None
            | inl e => raise e
            end;
  mret (match payload with
        | Some payload => bool_decide ("username" ∈ dom payload)
        | None => false
        end).

(** [await call_next(request)] *)
Definition await_call_next
    (call_next : Request → outcome Response) (request : Request)
  : M Response :=
  ([EvCallNext request], call_next request).

Definition dispatch (self : JWTMiddleware) (request : Request)
    (call_next : Request → outcome Response) : M Response :=
  if bool_decide (url_path request ∉ exempt_paths) then
    r ← attempt (extern (EvSecurity request) (security request));
    match r with
    | inl (Exc (HTTPException status_code detail)) =>
        mret (JSONResponse status_code {[ "detail" := detail ]})
    | inl e => raise e
    | inr creds =>
        valid ← _is_jwt_access_token_valid self (credentials creds);
        if negb valid then mret invalid_token_response
        else await_call_next call_next request
    end
  else await_call_next call_next request.
End Middleware.

(** ** The code as equations

    What one verification and one guarded dispatch amount to, by the answers
    of the collaborators; [verify_unfold] and [dispatch_guarded] prove them
    equal to the code. *)

(** The identity claim the middleware looks for. *)
Definition has_username (payload : gmap string json) : Prop :=
  "username" ∈ dom payload.

Section Runs.
Context `{Externals}.

(** The events and the verdict of one verification, by the answer of the
    JWT library. *)
Definition verify_run (self : JWTMiddleware) (access_token : string) : M bool :=
  let algorithms := [jwt_algorithm (auth_config self)] in
  let decode := EvJwtDecode access_token (PUBLIC_KEY self) algorithms in
  let checking := EvLogInfo "Checking if JWT access token is valid" in
  match jwt_decode access_token (PUBLIC_KEY self) algorithms with
  | inr payload =>
      ([checking; decode], Return (bool_decide (has_username payload)))
  | inl e =>
      ([checking; decode; EvLogException "Error decoding JWT access token" e],
       Return false)
  end.

(** [dispatch] on a path that is not exempt. *)
Definition guarded_run (self : JWTMiddleware) (request : Request)
    (call_next : Request → outcome Response) : M Response :=
  match security request with
  | inl (HTTPException status_code detail) =>
      ([EvSecurity request],
       Return (JSONResponse status_code {[ "detail" := detail ]}))
  | inl e => ([EvSecurity request], Raise (Exc e))
  | inr creds =>
      let v := _is_jwt_access_token_valid self (credentials creds) in
      match result v with
      | Return true =>
          (EvSecurity request :: trace v ++ [EvCallNext request],
           call_next request)
      | Return false =>
          (EvSecurity request :: trace v, Return invalid_token_response)
      | Raise e => (EvSecurity request :: trace v, Raise e)
      end
  end.
End Runs.

(** ** What the JWT library promises *)

(** The notions in which the contract of [jwt.decode] is stated. *)
Record JwtSemantics : Type := {
  (** the signature of the token verifies under the key *)
  signature_verifies : string → string → Prop;
  (** the algorithm named in the header of the token *)
  header_alg : string → option string;
  (** the token carries an expiry that has passed at the time of the call *)
  expired : string → Prop
}.

(** [jwt.decode] hands back a payload only for a token whose signature
    verifies under the key, that has not expired, and whose algorithm is one
    of those the caller allowed. *)
Definition decode_sound `{Externals} (S : JwtSemantics) : Prop :=
  ∀ token key algorithms payload,
    jwt_decode token key algorithms = inr payload →
    signature_verifies S token key
    ∧ ¬ expired S token
    ∧ ∃ alg, header_alg S token = Some alg ∧ Some alg ∈ algorithms.

Definition has_non_null_username (payload : gmap string json) : Prop :=
  ∃ v, payload !! "username" = Some v ∧ v ≠ JNull.

(** What C1 asks of a token the verifier accepts, with the identity claim
    read as the code reads it ([has_username]) or as the claim words it
    ([has_non_null_username]). *)
Definition acceptable `{Externals} (S : JwtSemantics)
    (identity : gmap string json → Prop)
    (self : JWTMiddleware) (access_token : string) : Prop :=
  signature_verifies S access_token (PUBLIC_KEY self)
  ∧ ¬ expired S access_token
  ∧ (∃ alg, header_alg S access_token = Some alg
            ∧ jwt_algorithm (auth_config self) = Some alg)
  ∧ ∃ payload,
      jwt_decode access_token (PUBLIC_KEY self)
        [jwt_algorithm (auth_config self)] = inr payload
      ∧ identity payload.

(** ** Instances of the collaborators *)

(** *** Strings *)

Definition ascii_lower (c : ascii) : ascii :=
  let n := nat_of_ascii c in
  if ((65 <=? n) && (n <=? 90))%nat then ascii_of_nat (n + 32) else c.

Fixpoint lower (s : string) : string :=
  match s with
  | EmptyString => EmptyString
  | String c s' => String (ascii_lower c) (lower s')
  end.

(** [s.partition(" ")] without the separator: the text before the first
    space and the text after it. *)
Fixpoint partition_space (s : string) : string * string :=
  match s with
  | EmptyString => (EmptyString, EmptyString)
  | String c s' =>
      if bool_decide (c = " "%char) then (EmptyString, s')
      else let '(a, b) := partition_space s' in (String c a, b)
  end.

Definition truthy (s : string) : bool := negb (bool_decide (s = "")).

(** *** pydantic's lax reading of a [bool] *)
Definition pydantic_bool (v : pyval) : option bool :=
  match v with
  | PyBool b => Some b
  | PyInt 0 => Some false
  | PyInt 1 => Some true
  | PyStr s =>
      let l := lower s in
      if bool_decide (l ∈ ["1"; "on"; "t"; "true"; "y"; "yes"]) then Some true
      else if bool_decide (l ∈ ["0"; "off"; "f"; "false"; "n"; "no"])
           then Some false
           else None
  | _ => None
  end.

(** *** The file system *)
Inductive fs_node : Type :=
| File (content : string)
| Unreadable.

Definition fs_open_read (fs : gmap string fs_node) (path : option string)
  : exception + string :=
  match path with
  | None => inl (TypeError "expected str, bytes or os.PathLike object, not NoneType")
  | Some p =>
      match fs !! p with
      | Some (File content) => inr content
      | Some Unreadable => inl (OSError ("Permission denied: " +:+ p))
      | None => inl (FileNotFoundError ("No such file or directory: " +:+ p))
      end
  end.

(** *** The bearer extractor *)

(** [request.headers.get(name)]: header names compare without case. *)
Fixpoint get_header (name : string) (hs : list (string * string))
  : option string :=
  match hs with
  | [] => None
  | (k, v) :: hs' =>
      if bool_decide (lower k = lower name) then Some v else get_header name hs'
  end.

(** The framework's [HTTPBearer(auto_error=True)].  The status code of its
    errors differs between releases of the framework (403 in the older ones,
    401 in the newer), so it is a parameter. *)
Definition HTTPBearer_call (error_status : Z) (request : Request)
  : exception + HTTPAuthorizationCredentials :=
  let authorization := default "" (get_header "Authorization" (headers request)) in
  let '(scheme, credentials) := partition_space authorization in
  if negb (truthy authorization && truthy scheme && truthy credentials)
  then inl (HTTPException error_status (JStr "Not authenticated"))
  else if negb (bool_decide (lower scheme = "bearer"))
  then inl (HTTPException error_status (JStr "Invalid authentication credentials"))
  else inr (mkCredentials scheme credentials).

(** *** A symbolic JWT library *)

(** Tokens are opaque strings; the issued tokens are those that parse, each
    with the algorithm of its header, the public key under which its
    signature verifies, and its claims. *)
Record issued_token : Type := mkIssued {
  tok_alg : string;
  tok_key : string;
  tok_claims : gmap string json
}.

Definition symbolic_decode (now : Z) (issued : gmap string issued_token)
    (token key : string) (algorithms : list (option string))
  : exception + gmap string json :=
  match issued !! token with
  | None => inl (DecodeError "Not enough segments")
  | Some t =>
      if negb (bool_decide (Some (tok_alg t) ∈ algorithms))
      then inl InvalidAlgorithmError
      else if negb (bool_decide (tok_key t = key))
      then inl InvalidSignatureError
      else match tok_claims t !! "exp" with
           | None => inr (tok_claims t)
           | Some (JNum exp) =>
               if exp <=? now then inl ExpiredSignatureError
               else inr (tok_claims t)
           | Some _ =>
               inl (DecodeError "Expiration Time claim (exp) must be an integer.")
           end
  end.

Definition symbolic_semantics (now : Z) (issued : gmap string issued_token)
  : JwtSemantics := {|
  signature_verifies token key :=
    ∃ t, issued !! token = Some t ∧ tok_key t = key;
  header_alg token := tok_alg <$> issued !! token;
  expired token :=
    ∃ t exp, issued !! token = Some t
             ∧ tok_claims t !! "exp" = Some (JNum exp) ∧ exp ≤ now
|}.

(** *** A deployment: a file system, the clock, the issued tokens and the
    release of the framework. *)
Definition deployment (fs : gmap string fs_node) (now : Z)
    (issued : gmap string issued_token) (error_status : Z) : Externals := {|
  validate_bool := pydantic_bool;
  open_read := fs_open_read fs;
  security := HTTPBearer_call error_status;
  jwt_decode := symbolic_decode now issued
|}.

(** Two tokens signed for the key in ["/keys/jwt.pub"]: one for a user, one
    whose [username] is [null]; a third has expired at time 1000. *)
Definition sample_fs : gmap string fs_node :=
  {[ "/keys/jwt.pub" := File "PUBLIC-KEY-A"; "/keys/locked.pub" := Unreadable ]}.

Definition sample_issued : gmap string issued_token :=
  {[ "tok.user" := mkIssued "RS256" "PUBLIC-KEY-A"
                     {[ "username" := JStr "alice"; "exp" := JNum 2000 ]};
     "tok.null" := mkIssued "RS256" "PUBLIC-KEY-A"
                     {[ "username" := JNull; "exp" := JNum 2000 ]};
     "tok.old" := mkIssued "RS256" "PUBLIC-KEY-A"
                     {[ "username" := JStr "alice"; "exp" := JNum 500 ]} ]}.

Definition sample : Externals := deployment sample_fs 1000 sample_issued 403.

Definition sample_config : AuthenticationConfig :=
  mkAuthenticationConfig true (Some "/keys/jwt.pub") (Some "RS256").

Definition sample_middleware : JWTMiddleware :=
  mkJWTMiddleware "PUBLIC-KEY-A" sample_config.

Definition sample_next (request : Request) : outcome Response :=
  Return (StreamingResponse 200 [] ("handled " +:+ url_path request)).

Definition bearer (path token : string) : Request :=
  mkRequest path [("authorization", "Bearer " +:+ token)].

(** *** Further deployments *)

(** [isinstance(e, HTTPException)]: what [except HTTPException] catches. *)
Definition is_http_exception (e : exception) : bool :=
  match e with HTTPException _ _ => true | _ => false end.

(** The sample deployment with an extractor that fails with an exception
    that is not an [HTTPException]. *)
Definition broken_extractor : Externals := {|
  validate_bool := pydantic_bool;
  open_read := fs_open_read sample_fs;
  security := λ _, inl (OtherException "RuntimeError");
  jwt_decode := symbolic_decode 1000 sample_issued
|}.

(** A middleware built from a configuration that names no algorithm. *)
Definition no_algorithm_middleware : JWTMiddleware :=
  mkJWTMiddleware "PUBLIC-KEY-A"
    (mkAuthenticationConfig false (Some "/keys/jwt.pub") None).

(** [path in ["/docs", "/openapi.json"]] *)
Definition is_exempt (path : string) : bool :=
  bool_decide (path ∈ exempt_paths).

(** * Properties *)

(** ** The code and its equations *)

Section RunLemmas.
Context `{Externals}.

Lemma verify_unfold self access_token :
  _is_jwt_access_token_valid self access_token = verify_run self access_token.
Proof.
  unfold _is_jwt_access_token_valid, verify_run, extern, attempt, tell.
  unfold mbind, mret, M_bind, M_ret.
  destruct (jwt_decode _ _ _); reflexivity.
Qed.

Lemma verify_returns self access_token :
  ∃ t b, _is_jwt_access_token_valid self access_token = (t, Return b).
Proof.
  rewrite verify_unfold. unfold verify_run.
  destruct (jwt_decode _ _ _); eauto.
Qed.

Lemma verify_true_decoded self access_token :
  result (_is_jwt_access_token_valid self access_token) = Return true ↔
  ∃ payload,
    jwt_decode access_token (PUBLIC_KEY self)
      [jwt_algorithm (auth_config self)] = inr payload
    ∧ has_username payload.
Proof.
  rewrite verify_unfold. unfold verify_run.
  destruct (jwt_decode _ _ _) as [e|payload] eqn:Hd; simpl; split.
  - discriminate.
  - intros (p & Hp & _). discriminate.
  - intros Hb. exists payload. split; [reflexivity|].
    injection Hb as Hb. by apply bool_decide_eq_true in Hb.
  - intros (p & Hp & Hu). injection Hp as <-.
    f_equal. by apply bool_decide_eq_true.
Qed.

(** A verification opens no file, calls the library once with the loaded
    key, and touches neither the extractor nor the next handler. *)
Lemma verify_trace self access_token :
  List.filter is_jwt_decode (trace (_is_jwt_access_token_valid self access_token))
  = [EvJwtDecode access_token (PUBLIC_KEY self)
       [jwt_algorithm (auth_config self)]]
  ∧ count is_open (trace (_is_jwt_access_token_valid self access_token)) = 0%nat
  ∧ count is_call_next (trace (_is_jwt_access_token_valid self access_token)) = 0%nat
  ∧ count is_security (trace (_is_jwt_access_token_valid self access_token)) = 0%nat.
Proof.
  rewrite verify_unfold. unfold verify_run.
  destruct (jwt_decode _ _ _); repeat split; reflexivity.
Qed.

Lemma dispatch_guarded self request call_next :
  url_path request ∉ exempt_paths →
  dispatch self request call_next = guarded_run self request call_next.
Proof.
  intros Hpath. unfold dispatch, guarded_run.
  rewrite bool_decide_eq_true_2 by done.
  unfold extern, attempt, mbind, mret, M_bind, M_ret, result, trace.
  destruct (security request) as [e|creds]; [by destruct e|].
  destruct (_is_jwt_access_token_valid self (credentials creds)) as [t [[]|e]];
    simpl; rewrite ?app_nil_r; reflexivity.
Qed.

Lemma dispatch_bypass self request call_next :
  url_path request ∈ exempt_paths →
  dispatch self request call_next = ([EvCallNext request], call_next request).
Proof.
  intros Hpath. unfold dispatch.
  rewrite bool_decide_eq_false_2 by (intros Hn; by apply Hn).
  reflexivity.
Qed.

Lemma not_exempt_iff path :
  path ∉ exempt_paths ↔ path ≠ "/docs" ∧ path ≠ "/openapi.json".
Proof.
  unfold exempt_paths. rewrite !not_elem_of_cons. split.
  - intros (? & ? & _). done.
  - intros [? ?]. repeat split; try done. apply not_elem_of_nil.
Qed.

Lemma count_app p (t1 t2 : list event) :
  count p (t1 ++ t2) = (count p t1 + count p t2)%nat.
Proof. unfold count. by rewrite List.filter_app, length_app. Qed.
End RunLemmas.

(** ** The instances behave as the libraries they stand for *)

Lemma symbolic_decode_sound fs now issued error_status :
  @decode_sound (deployment fs now issued error_status)
    (symbolic_semantics now issued).
Proof.
  intros token key algorithms payload. simpl. unfold symbolic_decode.
  destruct (issued !! token) as [t|] eqn:Ht; [|discriminate].
  case_bool_decide as Halg; simpl; [|discriminate].
  case_bool_decide as Hkey; simpl; [|discriminate].
  intros Hdec. split; [by exists t|]. split.
  - intros (t' & exp & Ht' & Hexp & Hle).
    assert (t' = t) as -> by congruence.
    rewrite Hexp in Hdec.
    destruct (Z.leb_spec exp now); [discriminate|lia].
  - by exists (tok_alg t).
Qed.

(** ** config.py *)

Section ConfigLemmas.
Context `{Externals}.

Lemma validator_only_value_error field_value info_data e :
  validate_optional_fields field_value info_data = inl e →
  e = ValueError "Field required".
Proof.
  unfold validate_optional_fields.
  destruct (_ && _); [congruence | discriminate].
Qed.

Lemma optional_field_never_raises name kwargs info_data e :
  validate_optional_field name kwargs info_data ≠ FieldRaise e.
Proof.
  unfold validate_optional_field.
  destruct (validate_optional_str _) as [v|]; [|discriminate].
  destruct (validate_optional_fields v info_data) as [e'|v'] eqn:Hv;
    [|discriminate].
  apply validator_only_value_error in Hv as ->. discriminate.
Qed.

Lemma optional_field_required name kwargs info_data :
  info_data !! "enabled" = Some (PyBool true) →
  not_provided name kwargs →
  validate_optional_field name kwargs info_data
  = FieldError "Value error, Field required".
Proof.
  intros Hen Hnp. unfold validate_optional_field, not_provided in *.
  rewrite Hnp. simpl. unfold validate_optional_fields, data_enabled.
  rewrite Hen. simpl.
  rewrite bool_decide_eq_true_2; [reflexivity|].
  apply elem_of_dom. by eexists.
Qed.

Lemma optional_field_accepted name kwargs info_data v :
  info_data !! "enabled" = Some (PyBool true) →
  validate_optional_field name kwargs info_data = FieldOk v →
  ∃ s, v = Some s ∧ kwargs !! name = Some (PyStr s).
Proof.
  intros Hen. unfold validate_optional_field.
  destruct (kwargs !! name) as [raw|] eqn:Hraw; simpl.
  - destruct raw as [ |b|n|s]; simpl; try discriminate.
    + unfold validate_optional_fields, data_enabled. rewrite Hen. simpl.
      rewrite bool_decide_eq_true_2 by (apply elem_of_dom; by eexists).
      discriminate.
    + unfold validate_optional_fields. rewrite andb_false_r.
      intros [= <-]. by exists s.
  - unfold validate_optional_fields, data_enabled. rewrite Hen. simpl.
    rewrite bool_decide_eq_true_2 by (apply elem_of_dom; by eexists).
    discriminate.
Qed.

Lemma enabled_recorded {A} name (to_py : A → pyval) (r : field_outcome A)
    (info_data : gmap string pyval) :
  name ≠ "enabled" →
  record_field name to_py r info_data !! "enabled" = info_data !! "enabled".
Proof.
  intros Hne. destruct r; simpl; try reflexivity.
  by rewrite lookup_insert_ne.
Qed.
End ConfigLemmas.

Section ConfigClaims.
Context `{Externals}.

(** C7, as amended.  Construction of [AuthenticationConfig] fails whenever
    [enabled] is true and [public_key_path] or [jwt_algorithm] is left out
    or is [None]; every successfully constructed configuration with
    [enabled] true has both fields set to a string (which may be empty). *)
Theorem enabled_config_requires_fields (kwargs : gmap string pyval) :
  (enabled_true kwargs →
   not_provided "public_key_path" kwargs ∨ not_provided "jwt_algorithm" kwargs →
   ∃ errors, AuthenticationConfig_init kwargs = inl (ValidationError errors))
  ∧ (∀ cfg,
       AuthenticationConfig_init kwargs = inr cfg →
       enabled cfg = true →
       ∃ key alg,
         public_key_path cfg = Some key ∧ jwt_algorithm cfg = Some alg
         ∧ kwargs !! "public_key_path" = Some (PyStr key)
         ∧ kwargs !! "jwt_algorithm" = Some (PyStr alg)).
Proof.
  unfold AuthenticationConfig_init.
  set (r_enabled := validate_enabled kwargs).
  set (data1 := record_field "enabled" PyBool r_enabled ∅).
  set (r_key := validate_optional_field "public_key_path" kwargs data1).
  set (data2 := record_field "public_key_path" of_optional_str r_key data1).
  set (r_alg := validate_optional_field "jwt_algorithm" kwargs data2).
  assert (Hdata : r_enabled = FieldOk true →
                  data1 !! "enabled" = Some (PyBool true)
                  ∧ data2 !! "enabled" = Some (PyBool true)).
  { intros Hen. unfold data2. rewrite enabled_recorded by done.
    unfold data1. rewrite Hen. simpl. by rewrite lookup_insert_eq. }
  split.
  - intros (v & Hv & Hb) Hnone.
    assert (Hen : r_enabled = FieldOk true).
    { unfold r_enabled, validate_enabled. by rewrite Hv, Hb. }
    destruct (Hdata Hen) as [Hd1 Hd2].
    pose proof (optional_field_never_raises "public_key_path" kwargs data1) as Hk.
    pose proof (optional_field_never_raises "jwt_algorithm" kwargs data2) as Ha.
    fold r_key in Hk. fold r_alg in Ha.
    destruct Hnone as [Hnp|Hnp].
    + pose proof (optional_field_required _ _ _ Hd1 Hnp) as Hreq.
      fold r_key in Hreq. rewrite Hen, Hreq.
      destruct r_alg as [a|msg|e]; eauto. by destruct (Ha e).
    + pose proof (optional_field_required _ _ _ Hd2 Hnp) as Hreq.
      fold r_alg in Hreq. rewrite Hen, Hreq.
      destruct r_key as [k|msg|e]; eauto. by destruct (Hk e).
  - intros cfg Hinit Hcfg.
    destruct r_enabled as [e| |] eqn:Hen;
      destruct r_key as [k| |] eqn:Hkey;
      destruct r_alg as [a| |] eqn:Halg; try discriminate;
      try (exfalso; eapply optional_field_never_raises; eassumption).
    injection Hinit as <-. simpl in Hcfg. subst e.
    destruct (Hdata eq_refl) as [Hd1 Hd2].
    destruct (optional_field_accepted _ _ _ _ Hd1 Hkey) as (key & -> & ?).
    destruct (optional_field_accepted _ _ _ _ Hd2 Halg) as (alg & -> & ?).
    by exists key, alg.
Qed.
End ConfigClaims.

(** C7, as stated, fails: with [enabled=True] and both fields the empty
    string the construction succeeds, and the fields are empty. *)
Lemma enabled_config_accepts_empty_strings :
  @enabled_true sample
    {[ "enabled" := PyBool true; "public_key_path" := PyStr "";
       "jwt_algorithm" := PyStr "" ]}
  ∧ @AuthenticationConfig_init sample
      {[ "enabled" := PyBool true; "public_key_path" := PyStr "";
         "jwt_algorithm" := PyStr "" ]}
    = inr (mkAuthenticationConfig true (Some "") (Some ""))
  ∧ ¬ non_empty (public_key_path (mkAuthenticationConfig true (Some "") (Some "")))
  ∧ ¬ non_empty (jwt_algorithm (mkAuthenticationConfig true (Some "") (Some ""))).
Proof.
  split; [|split; [|split]].
  - exists (PyBool true). split; reflexivity.
  - vm_compute. reflexivity.
  - intros (s & Hs & Hne). simpl in Hs. congruence.
  - intros (s & Hs & Hne). simpl in Hs. congruence.
Qed.

Lemma enabled_config_requires_fields_witness :
  (∃ errors,
     @AuthenticationConfig_init sample
       {[ "enabled" := PyBool true; "jwt_algorithm" := PyStr "RS256" ]}
     = inl (ValidationError errors))
  ∧ (∃ key alg,
       public_key_path sample_config = Some key
       ∧ jwt_algorithm sample_config = Some alg
       ∧ ({[ "enabled" := PyStr "yes"; "public_key_path" := PyStr "/keys/jwt.pub";
             "jwt_algorithm" := PyStr "RS256" ]} : gmap string pyval)
           !! "public_key_path" = Some (PyStr key)
       ∧ ({[ "enabled" := PyStr "yes"; "public_key_path" := PyStr "/keys/jwt.pub";
             "jwt_algorithm" := PyStr "RS256" ]} : gmap string pyval)
           !! "jwt_algorithm" = Some (PyStr alg)).
Proof.
  split.
  - apply (proj1 (@enabled_config_requires_fields sample _)).
    + exists (PyBool true). split; reflexivity.
    + left. reflexivity.
  - apply (proj2 (@enabled_config_requires_fields sample _) sample_config).
    + vm_compute. reflexivity.
    + reflexivity.
Defined.

(** ** jwt_middleware.py: the verifier *)

Section VerifierClaims.
Context `{Externals}.

(** C1, as amended.  The verifier returns [True] only when the signature of
    the token verifies against the loaded public key, the token has not
    expired, its algorithm is the configured one, and the decoded payload
    has a [username] key (whatever its value); in every other case it
    returns [False]. *)
Theorem verify_true_only_when_acceptable
    (S : JwtSemantics) (self : JWTMiddleware) (access_token : string) :
  decode_sound S →
  ∃ b, result (_is_jwt_access_token_valid self access_token) = Return b
       ∧ (b = true ↔ acceptable S has_username self access_token).
Proof.
  intros Hlib.
  destruct (verify_returns self access_token) as (t & b & Hrun).
  exists b. split; [by rewrite Hrun|].
  pose proof (verify_true_decoded self access_token) as Hiff.
  rewrite Hrun in Hiff. simpl in Hiff.
  split.
  - intros ->. destruct Hiff as [Hdec _].
    destruct (Hdec eq_refl) as (payload & Hpayload & Huser).
    destruct (Hlib _ _ _ _ Hpayload) as (Hsig & Hexp & alg & Halg & Hin).
    repeat split; try done.
    + exists alg. split; [done|].
      apply list_elem_of_singleton in Hin. done.
    + by exists payload.
  - intros (_ & _ & _ & Hdec).
    apply Hiff in Hdec. congruence.
Qed.

(** C4.  On every input string the verifier returns a boolean: no exception
    leaves it, and whenever decoding fails, with whatever exception, the
    boolean is [False]. *)
Theorem verify_never_raises (self : JWTMiddleware) (access_token : string) :
  ∃ b, result (_is_jwt_access_token_valid self access_token) = Return b
       ∧ ∀ e, jwt_decode access_token (PUBLIC_KEY self)
                [jwt_algorithm (auth_config self)] = inl e →
              b = false
              ∧ EvLogException "Error decoding JWT access token" e
                ∈ trace (_is_jwt_access_token_valid self access_token).
Proof.
  rewrite verify_unfold. unfold verify_run.
  destruct (jwt_decode _ _ _) as [e|payload]; simpl.
  - exists false. split; [done|]. intros e' [= <-].
    split; [done|]. set_solver.
  - eexists. split; [done|]. discriminate.
Qed.
End VerifierClaims.

(** C1, as stated, fails: a token signed for the configured key, unexpired,
    of the configured algorithm, whose payload is
    [{"username": null, "exp": 2000}], is accepted. *)
Lemma verify_accepts_null_username :
  @decode_sound sample (symbolic_semantics 1000 sample_issued)
  ∧ result (@_is_jwt_access_token_valid sample sample_middleware "tok.null")
    = Return true
  ∧ @jwt_decode sample "tok.null" (PUBLIC_KEY sample_middleware)
      [jwt_algorithm (auth_config sample_middleware)]
    = inr {[ "username" := JNull; "exp" := JNum 2000 ]}
  ∧ ¬ @acceptable sample (symbolic_semantics 1000 sample_issued)
        has_non_null_username sample_middleware "tok.null".
Proof.
  split; [apply symbolic_decode_sound|].
  split; [by vm_compute|].
  assert (Hdec : @jwt_decode sample "tok.null" (PUBLIC_KEY sample_middleware)
                   [jwt_algorithm (auth_config sample_middleware)]
                 = inr {[ "username" := JNull; "exp" := JNum 2000 ]})
    by (by vm_compute).
  split; [exact Hdec|].
  intros (_ & _ & _ & payload & Hpayload & v & Hv & Hnull).
  rewrite Hdec in Hpayload. injection Hpayload as <-.
  vm_compute in Hv. congruence.
Qed.

Lemma verify_true_only_when_acceptable_witness :
  ∃ b, result (@_is_jwt_access_token_valid sample sample_middleware "tok.user")
       = Return b
       ∧ (b = true ↔ @acceptable sample (symbolic_semantics 1000 sample_issued)
                        has_username sample_middleware "tok.user").
Proof.
  apply verify_true_only_when_acceptable.
  apply symbolic_decode_sound.
Defined.

Example verify_sample_verdicts :
  result (@_is_jwt_access_token_valid sample sample_middleware "tok.user")
  = Return true
  ∧ result (@_is_jwt_access_token_valid sample sample_middleware "tok.old")
    = Return false
  ∧ result (@_is_jwt_access_token_valid sample sample_middleware "")
    = Return false
  ∧ result (@_is_jwt_access_token_valid sample sample_middleware "tok.us")
    = Return false.
Proof. repeat split; by vm_compute. Qed.

(** ** jwt_middleware.py: the gate *)

Section GateLemmas.
Context `{Externals}.

Lemma verify_events self access_token ev :
  ev ∈ trace (_is_jwt_access_token_valid self access_token) →
  ev = EvLogInfo "Checking if JWT access token is valid"
  ∨ ev = EvJwtDecode access_token (PUBLIC_KEY self)
           [jwt_algorithm (auth_config self)]
  ∨ ∃ e, ev = EvLogException "Error decoding JWT access token" e.
Proof.
  rewrite verify_unfold. unfold verify_run.
  destruct (jwt_decode _ _ _) as [e|payload]; simpl;
    rewrite !elem_of_cons, elem_of_nil; intros [->|[->|Hev]]; eauto.
  - destruct Hev as [->|[]]; eauto.
  - destruct Hev.
Qed.

(** The events of a dispatch: the next handler alone, or the extractor
    followed, when it gave credentials, by one verification and, when that
    passed, the next handler. *)
Lemma dispatch_events self request call_next :
  trace (dispatch self request call_next) = [EvCallNext request]
  ∨ trace (dispatch self request call_next) = [EvSecurity request]
  ∨ ∃ creds tail,
      security request = inr creds
      ∧ (tail = [] ∨ tail = [EvCallNext request])
      ∧ trace (dispatch self request call_next)
        = EvSecurity request
            :: trace (_is_jwt_access_token_valid self (credentials creds))
            ++ tail.
Proof.
  destruct (decide (url_path request ∈ exempt_paths)) as [Hex|Hex].
  - left. by rewrite dispatch_bypass.
  - right. rewrite dispatch_guarded by done. unfold guarded_run.
    destruct (security request) as [e|creds] eqn:Hsec.
    + left. by destruct e.
    + right. exists creds.
      destruct (verify_returns self (credentials creds)) as (t & b & Hrun).
      rewrite Hrun. simpl. destruct b.
      * exists [EvCallNext request]. auto.
      * exists []. rewrite app_nil_r. auto.
Qed.
End GateLemmas.

Section GateClaims.
Context `{Externals}.

(** C2, as amended.  For every request to a non-exempt path whose
    credential extraction fails with an [HTTPException], [dispatch] does
    nothing but call the extractor and returns a JSON response whose status
    is the status code carried by that exception and whose body is
    [{"detail": <the exception's detail>}]; the next handler is never
    invoked. *)
Theorem dispatch_rejects_failed_extraction
    (self : JWTMiddleware) (request : Request)
    (call_next : Request → outcome Response)
    (status_code : Z) (detail : json) :
  url_path request ∉ exempt_paths →
  security request = inl (HTTPException status_code detail) →
  result (dispatch self request call_next)
  = Return (JSONResponse status_code {[ "detail" := detail ]})
  ∧ trace (dispatch self request call_next) = [EvSecurity request]
  ∧ count is_call_next (trace (dispatch self request call_next)) = 0%nat.
Proof.
  intros Hpath Hsec. rewrite dispatch_guarded by done.
  unfold guarded_run. rewrite Hsec. done.
Qed.

(** C3.  For every request to a non-exempt path whose bearer credential is
    extracted and for which the verifier returns [False], [dispatch] returns
    a JSON response with status 403 and body
    [{"detail": "Invalid token or expired token"}], and the next handler is
    not invoked. *)
Theorem dispatch_rejects_invalid_token
    (self : JWTMiddleware) (request : Request)
    (call_next : Request → outcome Response)
    (creds : HTTPAuthorizationCredentials) :
  url_path request ∉ exempt_paths →
  security request = inr creds →
  result (_is_jwt_access_token_valid self (credentials creds)) = Return false →
  result (dispatch self request call_next)
  = Return (JSONResponse 403
              {[ "detail" := JStr "Invalid token or expired token" ]})
  ∧ count is_call_next (trace (dispatch self request call_next)) = 0%nat.
Proof.
  intros Hpath Hsec Hfalse. rewrite dispatch_guarded by done.
  unfold guarded_run. rewrite Hsec. simpl. rewrite Hfalse. simpl.
  split; [done|].
  change (EvSecurity request :: ?t) with ([EvSecurity request] ++ t).
  rewrite count_app.
  by destruct (verify_trace self (credentials creds)) as (_ & _ & -> & _).
Qed.

(** C5.  For every request whose path is ["/docs"] or ["/openapi.json"],
    [dispatch] extracts no credential and does not call the verifier: all
    it does is invoke the next handler on the request, and it returns what
    that handler returned, whatever the headers of the request. *)
Theorem dispatch_bypasses_exempt_paths
    (self : JWTMiddleware) (request : Request)
    (call_next : Request → outcome Response) :
  url_path request = "/docs" ∨ url_path request = "/openapi.json" →
  dispatch self request call_next = ([EvCallNext request], call_next request)
  ∧ count is_security (trace (dispatch self request call_next)) = 0%nat
  ∧ count is_jwt_decode (trace (dispatch self request call_next)) = 0%nat.
Proof.
  intros Hpath.
  assert (Hex : url_path request ∈ exempt_paths).
  { unfold exempt_paths. destruct Hpath as [-> | ->]; set_solver. }
  rewrite dispatch_bypass by done. done.
Qed.

(** C6.  For every request to a non-exempt path whose bearer credential is
    extracted and for which the verifier returns [True], [dispatch] invokes
    the next handler exactly once, on the request, as its last step, and
    returns what that handler returned. *)
Theorem dispatch_forwards_valid_token
    (self : JWTMiddleware) (request : Request)
    (call_next : Request → outcome Response)
    (creds : HTTPAuthorizationCredentials) :
  url_path request ∉ exempt_paths →
  security request = inr creds →
  result (_is_jwt_access_token_valid self (credentials creds)) = Return true →
  result (dispatch self request call_next) = call_next request
  ∧ List.filter is_call_next (trace (dispatch self request call_next))
    = [EvCallNext request]
  ∧ count is_call_next (trace (dispatch self request call_next)) = 1%nat.
Proof.
  intros Hpath Hsec Htrue. rewrite dispatch_guarded by done.
  unfold guarded_run. rewrite Hsec. simpl. rewrite Htrue. simpl.
  split; [done|].
  destruct (verify_trace self (credentials creds)) as (_ & _ & Hnone & _).
  unfold count in *. apply length_zero_iff_nil in Hnone. simpl.
  rewrite !List.filter_app, !Hnone. split; reflexivity.
Qed.
End GateClaims.

(** C2, as stated, fails: with a release of the framework whose extractor
    answers a missing header with status 403, a request to ["/data"] without
    an [Authorization] header is rejected with 403, not 401. *)
Lemma dispatch_missing_header_not_401 :
  (url_path (mkRequest "/data" []) ∉ exempt_paths)
  ∧ @security sample (mkRequest "/data" [])
    = inl (HTTPException 403 (JStr "Not authenticated"))
  ∧ result (@dispatch sample sample_middleware (mkRequest "/data" []) sample_next)
    = Return (JSONResponse 403 {[ "detail" := JStr "Not authenticated" ]})
  ∧ result (@dispatch sample sample_middleware (mkRequest "/data" []) sample_next)
    ≠ Return (JSONResponse HTTP_401_UNAUTHORIZED
                {[ "detail" := JStr "Not authenticated" ]}).
Proof.
  split; [|split; [|split]].
  - apply not_exempt_iff. split; discriminate.
  - reflexivity.
  - by vm_compute.
  - vm_compute. discriminate.
Qed.

Lemma dispatch_rejects_failed_extraction_witness :
  result (@dispatch sample sample_middleware
            (mkRequest "/data" [("Authorization", "Basic dXNlcjpwdw==")])
            sample_next)
  = Return (JSONResponse 403
              {[ "detail" := JStr "Invalid authentication credentials" ]})
  ∧ trace (@dispatch sample sample_middleware
             (mkRequest "/data" [("Authorization", "Basic dXNlcjpwdw==")])
             sample_next)
    = [EvSecurity (mkRequest "/data" [("Authorization", "Basic dXNlcjpwdw==")])]
  ∧ count is_call_next
      (trace (@dispatch sample sample_middleware
                (mkRequest "/data" [("Authorization", "Basic dXNlcjpwdw==")])
                sample_next)) = 0%nat.
Proof.
  apply (@dispatch_rejects_failed_extraction sample).
  - apply not_exempt_iff. split; discriminate.
  - reflexivity.
Defined.

Lemma dispatch_rejects_invalid_token_witness :
  result (@dispatch sample sample_middleware (bearer "/data" "garbage") sample_next)
  = Return (JSONResponse 403
              {[ "detail" := JStr "Invalid token or expired token" ]})
  ∧ count is_call_next
      (trace (@dispatch sample sample_middleware (bearer "/data" "garbage")
                sample_next)) = 0%nat.
Proof.
  apply (@dispatch_rejects_invalid_token sample _ _ _
           (mkCredentials "Bearer" "garbage")).
  - apply not_exempt_iff. split; discriminate.
  - reflexivity.
  - by vm_compute.
Defined.

Lemma dispatch_bypasses_exempt_paths_witness :
  @dispatch sample sample_middleware (mkRequest "/docs" []) sample_next
  = ([EvCallNext (mkRequest "/docs" [])], sample_next (mkRequest "/docs" []))
  ∧ count is_security
      (trace (@dispatch sample sample_middleware (mkRequest "/docs" [])
                sample_next)) = 0%nat
  ∧ count is_jwt_decode
      (trace (@dispatch sample sample_middleware (mkRequest "/docs" [])
                sample_next)) = 0%nat.
Proof.
  apply (@dispatch_bypasses_exempt_paths sample).
  left. reflexivity.
Defined.

Lemma dispatch_forwards_valid_token_witness :
  result (@dispatch sample sample_middleware (bearer "/data" "tok.user") sample_next)
  = sample_next (bearer "/data" "tok.user")
  ∧ List.filter is_call_next
      (trace (@dispatch sample sample_middleware (bearer "/data" "tok.user")
                sample_next))
    = [EvCallNext (bearer "/data" "tok.user")]
  ∧ count is_call_next
      (trace (@dispatch sample sample_middleware (bearer "/data" "tok.user")
                sample_next)) = 1%nat.
Proof.
  apply (@dispatch_forwards_valid_token sample _ _ _
           (mkCredentials "Bearer" "tok.user")).
  - apply not_exempt_iff. split; discriminate.
  - reflexivity.
  - by vm_compute.
Defined.

(** ** jwt_middleware.py: construction *)

Section ConstructionClaims.
Context `{Externals}.

Lemma create_unfold cfg :
  create_jwt_middleware cfg
  = ([EvOpen (public_key_path cfg)],
     match open_read (public_key_path cfg) with
     | inr content => Return (mkJWTMiddleware content cfg)
     | inl (FileNotFoundError msg) =>
         Raise (SystemExit ("Cannot find public key: " +:+ msg))
     | inl e => Raise (Exc e)
     end).
Proof.
  unfold create_jwt_middleware, extern, attempt, raise.
  unfold mbind, mret, M_bind, M_ret.
  destruct (open_read _) as [e|content]; [by destruct e | reflexivity].
Qed.

(** A dispatch never opens a file, and every call it makes to the JWT
    library passes the key and the algorithm held by the middleware. *)
Lemma dispatch_uses_loaded_key self request call_next :
  count is_open (trace (dispatch self request call_next)) = 0%nat
  ∧ ∀ ev, ev ∈ trace (dispatch self request call_next) →
          is_jwt_decode ev = true →
          ∃ token, ev = EvJwtDecode token (PUBLIC_KEY self)
                          [jwt_algorithm (auth_config self)].
Proof.
  destruct (dispatch_events self request call_next)
    as [-> | [-> | (creds & tail & _ & Htail & ->)]].
  - split; [done|]. intros ev ->%list_elem_of_singleton. discriminate.
  - split; [done|]. intros ev ->%list_elem_of_singleton. discriminate.
  - split.
    + change (EvSecurity request :: ?t) with ([EvSecurity request] ++ t).
      rewrite !count_app.
      destruct (verify_trace self (credentials creds)) as (_ & -> & _).
      by destruct Htail as [-> | ->].
    + intros ev Hev Hdec.
      apply elem_of_cons in Hev as [-> | Hev]; [discriminate|].
      apply elem_of_app in Hev as [Hev | Hev].
      * apply verify_events in Hev as [-> | [-> | [e ->]]];
          [discriminate | by eexists | discriminate].
      * destruct Htail as [-> | ->].
        -- by apply elem_of_nil in Hev.
        -- apply list_elem_of_singleton in Hev as ->. discriminate.
Qed.

(** The verdict of a verification is read off the answer of [jwt.decode]
    to the token, the key of the middleware and its one algorithm. *)
Lemma verify_verdict self access_token :
  result (_is_jwt_access_token_valid self access_token)
  = Return match jwt_decode access_token (PUBLIC_KEY self)
                   [jwt_algorithm (auth_config self)] with
           | inr payload => bool_decide (has_username payload)
           | inl _ => false
           end.
Proof.
  rewrite verify_unfold. unfold verify_run.
  by destruct (jwt_decode _ _ _).
Qed.

(** The calls of [jwt.decode] in a dispatch: none on an exempt path or when
    the extractor failed, and otherwise the one call on the extracted
    credential with the key and the algorithm of the middleware. *)
Lemma dispatch_decode_calls self request call_next :
  List.filter is_jwt_decode (trace (dispatch self request call_next))
  = if is_exempt (url_path request) then []
    else match security request with
         | inr creds =>
             [EvJwtDecode (credentials creds) (PUBLIC_KEY self)
                [jwt_algorithm (auth_config self)]]
         | inl _ => []
         end.
Proof.
  unfold is_exempt. case_bool_decide as Hex.
  - by rewrite dispatch_bypass.
  - rewrite dispatch_guarded by done. unfold guarded_run.
    destruct (security request) as [e|creds]; [by destruct e|].
    destruct (verify_trace self (credentials creds)) as (Hdec & _).
    destruct (verify_returns self (credentials creds)) as (t & b & Hrun).
    rewrite Hrun in *. simpl in *.
    destruct b; simpl; rewrite ?List.filter_app, Hdec; done.
Qed.

(** C8.  When the public key file cannot be read, [create_jwt_middleware]
    ends in an exception after its one attempt to open the file and returns
    no middleware: [SystemExit] with the message
    ["Cannot find public key: ..."] for a missing file, and the exception of
    the read itself otherwise.  When the file can be read, the file is opened
    exactly once and the middleware holds its contents; from then on every
    verification opens no file, calls [jwt.decode] exactly once, on the token
    with those contents as the key, and returns the verdict that this call
    gives; and every dispatch opens no file and makes exactly that call for
    the credential it extracted on a non-exempt path. *)
Theorem create_loads_key_once_or_fails (cfg : AuthenticationConfig) :
  (∀ e, open_read (public_key_path cfg) = inl e →
     ∃ fatal,
       create_jwt_middleware cfg
       = ([EvOpen (public_key_path cfg)], Raise fatal)
       ∧ (∀ msg, e = FileNotFoundError msg →
                 fatal = SystemExit ("Cannot find public key: " +:+ msg))
       ∧ ((∀ msg, e ≠ FileNotFoundError msg) → fatal = Exc e))
  ∧ (∀ content, open_read (public_key_path cfg) = inr content →
       ∃ middleware,
         create_jwt_middleware cfg
         = ([EvOpen (public_key_path cfg)], Return middleware)
         ∧ count is_open (trace (create_jwt_middleware cfg)) = 1%nat
         ∧ PUBLIC_KEY middleware = content
         ∧ (∀ access_token,
              count is_open
                (trace (_is_jwt_access_token_valid middleware access_token))
              = 0%nat
              ∧ List.filter is_jwt_decode
                  (trace (_is_jwt_access_token_valid middleware access_token))
                = [EvJwtDecode access_token content [jwt_algorithm cfg]]
              ∧ result (_is_jwt_access_token_valid middleware access_token)
                = Return match jwt_decode access_token content
                                 [jwt_algorithm cfg] with
                         | inr payload => bool_decide (has_username payload)
                         | inl _ => false
                         end)
         ∧ (∀ request call_next,
              count is_open (trace (dispatch middleware request call_next))
              = 0%nat
              ∧ List.filter is_jwt_decode
                  (trace (dispatch middleware request call_next))
                = if is_exempt (url_path request) then []
                  else match security request with
                       | inr creds =>
                           [EvJwtDecode (credentials creds) content
                              [jwt_algorithm cfg]]
                       | inl _ => []
                       end)).
Proof.
  rewrite create_unfold. split.
  - intros e ->. destruct e; eexists; (split; [reflexivity|]); split;
      try (intros msg' Hmsg; discriminate Hmsg); try done.
    + intros msg' Hmsg. by injection Hmsg as ->.
    + intros Hne. by destruct (Hne msg).
  - intros content ->. eexists. split; [reflexivity|].
    split; [reflexivity|]. split; [reflexivity|]. split.
    + intros access_token.
      destruct (verify_trace (mkJWTMiddleware content cfg) access_token)
        as (Hdec & Hopen & _).
      split; [done|]. split; [done|].
      apply (verify_verdict (mkJWTMiddleware content cfg)).
    + intros request call_next. split.
      * apply (dispatch_uses_loaded_key (mkJWTMiddleware content cfg)).
      * apply (dispatch_decode_calls (mkJWTMiddleware content cfg)).
Qed.
End ConstructionClaims.

Lemma create_loads_key_once_or_fails_witness :
  (∃ fatal,
     @create_jwt_middleware sample
       (mkAuthenticationConfig true (Some "/keys/absent.pub") (Some "RS256"))
     = ([EvOpen (Some "/keys/absent.pub")], Raise fatal)
     ∧ (∀ msg,
          FileNotFoundError "No such file or directory: /keys/absent.pub"
          = FileNotFoundError msg →
          fatal = SystemExit ("Cannot find public key: " +:+ msg))
     ∧ ((∀ msg,
           FileNotFoundError "No such file or directory: /keys/absent.pub"
           ≠ FileNotFoundError msg) → fatal = Exc (FileNotFoundError
             "No such file or directory: /keys/absent.pub")))
  ∧ (∃ middleware,
       @create_jwt_middleware sample sample_config
       = ([EvOpen (Some "/keys/jwt.pub")], Return middleware)
       ∧ count is_open (trace (@create_jwt_middleware sample sample_config))
         = 1%nat
       ∧ PUBLIC_KEY middleware = "PUBLIC-KEY-A"
       ∧ (∀ access_token,
            count is_open
              (trace (@_is_jwt_access_token_valid sample middleware access_token))
            = 0%nat
            ∧ List.filter is_jwt_decode
                (trace (@_is_jwt_access_token_valid sample middleware access_token))
              = [EvJwtDecode access_token "PUBLIC-KEY-A" [Some "RS256"]]
            ∧ result (@_is_jwt_access_token_valid sample middleware access_token)
              = Return match @jwt_decode sample access_token "PUBLIC-KEY-A"
                               [Some "RS256"] with
                       | inr payload => bool_decide (has_username payload)
                       | inl _ => false
                       end)
       ∧ (∀ request call_next,
            count is_open (trace (@dispatch sample middleware request call_next))
            = 0%nat
            ∧ List.filter is_jwt_decode
                (trace (@dispatch sample middleware request call_next))
              = if is_exempt (url_path request) then []
                else match @security sample request with
                     | inr creds =>
                         [EvJwtDecode (credentials creds) "PUBLIC-KEY-A"
                            [Some "RS256"]]
                     | inl _ => []
                     end)).
Proof.
  split.
  - apply (proj1 (@create_loads_key_once_or_fails sample
             (mkAuthenticationConfig true (Some "/keys/absent.pub") (Some "RS256")))).
    reflexivity.
  - apply (proj2 (@create_loads_key_once_or_fails sample sample_config)).
    reflexivity.
Defined.

(** The key that was loaded decides the verdicts: the same token, signed for
    the key in ["/keys/jwt.pub"], is accepted by the middleware built from
    that file and rejected by one that holds another key. *)
Example loaded_key_decides_verdict :
  result (@_is_jwt_access_token_valid sample sample_middleware "tok.user")
  = Return true
  ∧ result (@_is_jwt_access_token_valid sample
              (mkJWTMiddleware "PUBLIC-KEY-B" sample_config) "tok.user")
    = Return false
  ∧ List.filter is_jwt_decode
      (trace (@dispatch sample sample_middleware (bearer "/data" "tok.user")
                sample_next))
    = [EvJwtDecode "tok.user" "PUBLIC-KEY-A" [Some "RS256"]].
Proof. repeat split; by vm_compute. Qed.

Example create_sample_outcomes :
  @create_jwt_middleware sample sample_config
  = ([EvOpen (Some "/keys/jwt.pub")], Return sample_middleware)
  ∧ @create_jwt_middleware sample
      (mkAuthenticationConfig true (Some "/keys/absent.pub") (Some "RS256"))
    = ([EvOpen (Some "/keys/absent.pub")],
       Raise (SystemExit "Cannot find public key: No such file or directory: /keys/absent.pub"))
  ∧ @create_jwt_middleware sample
      (mkAuthenticationConfig true (Some "/keys/locked.pub") (Some "RS256"))
    = ([EvOpen (Some "/keys/locked.pub")],
       Raise (Exc (OSError "Permission denied: /keys/locked.pub")))
  ∧ @create_jwt_middleware sample (mkAuthenticationConfig false None None)
    = ([EvOpen None],
       Raise (Exc (TypeError "expected str, bytes or os.PathLike object, not NoneType"))).
Proof. repeat split; by vm_compute. Qed.

Section FlagAndPathClaims.
Context `{Externals}.

Lemma verify_ignores_enabled key e1 e2 path alg access_token :
  _is_jwt_access_token_valid
    (mkJWTMiddleware key (mkAuthenticationConfig e1 path alg)) access_token
  = _is_jwt_access_token_valid
      (mkJWTMiddleware key (mkAuthenticationConfig e2 path alg)) access_token.
Proof. reflexivity. Qed.

Lemma dispatch_ignores_enabled key e1 e2 path alg request call_next :
  dispatch (mkJWTMiddleware key (mkAuthenticationConfig e1 path alg))
    request call_next
  = dispatch (mkJWTMiddleware key (mkAuthenticationConfig e2 path alg))
      request call_next.
Proof. reflexivity. Qed.

(** C9.  The gate does not depend on [enabled]: two configurations that
    differ only in the flag make [create_jwt_middleware] read the key file
    in the same way and end in the same way (the same exception, or
    middlewares holding the same key), and the two middlewares give the
    same events and the same answer, in [dispatch] and in the verifier, on
    every request and every token. *)
Theorem enabled_flag_is_ignored
    (e1 e2 : bool) (path alg : option string) :
  let c1 := mkAuthenticationConfig e1 path alg in
  let c2 := mkAuthenticationConfig e2 path alg in
  trace (create_jwt_middleware c1) = [EvOpen path]
  ∧ trace (create_jwt_middleware c2) = [EvOpen path]
  ∧ match result (create_jwt_middleware c1),
          result (create_jwt_middleware c2) with
    | Return m1, Return m2 =>
        PUBLIC_KEY m1 = PUBLIC_KEY m2
        ∧ (∀ request call_next,
             dispatch m1 request call_next = dispatch m2 request call_next)
        ∧ (∀ access_token,
             _is_jwt_access_token_valid m1 access_token
             = _is_jwt_access_token_valid m2 access_token)
    | Raise x1, Raise x2 => x1 = x2
    | _, _ => False
    end.
Proof.
  intros c1 c2. rewrite !create_unfold. simpl.
  split; [done|]. split; [done|].
  destruct (open_read path) as [e|content].
  - by destruct e.
  - simpl. split; [done|]. split.
    + intros. apply dispatch_ignores_enabled.
    + intros. apply verify_ignores_enabled.
Qed.

(** C10.  The exempt paths are matched by equality with the whole path: on
    every path other than ["/docs"] and ["/openapi.json"], [dispatch]
    starts with the credential extraction, verifies the extracted
    credential with the JWT library, and reaches the next handler only when
    the extraction succeeded and the verifier returned [True]. *)
Theorem exempt_match_is_exact
    (self : JWTMiddleware) (request : Request)
    (call_next : Request → outcome Response) :
  url_path request ≠ "/docs" →
  url_path request ≠ "/openapi.json" →
  (∃ rest, trace (dispatch self request call_next) = EvSecurity request :: rest)
  ∧ (∀ creds, security request = inr creds →
       EvJwtDecode (credentials creds) (PUBLIC_KEY self)
         [jwt_algorithm (auth_config self)]
       ∈ trace (dispatch self request call_next))
  ∧ (count is_call_next (trace (dispatch self request call_next)) ≠ 0%nat →
     ∃ creds, security request = inr creds
              ∧ result (_is_jwt_access_token_valid self (credentials creds))
                = Return true).
Proof.
  intros Hdocs Hopenapi.
  assert (Hpath : url_path request ∉ exempt_paths) by by apply not_exempt_iff.
  rewrite dispatch_guarded by done. unfold guarded_run.
  destruct (security request) as [e|creds] eqn:Hsec.
  - split; [destruct e; by eexists|].
    split; [discriminate|].
    intros Hcalled. by destruct e.
  - pose proof (verify_trace self (credentials creds))
      as (Hdec & _ & Hnext & _).
    assert (Hin : EvJwtDecode (credentials creds) (PUBLIC_KEY self)
                    [jwt_algorithm (auth_config self)]
                  ∈ trace (_is_jwt_access_token_valid self (credentials creds))).
    { apply list_elem_of_In.
      eapply (proj1 (List.filter_In is_jwt_decode _ _)).
      rewrite Hdec. by left. }
    destruct (verify_returns self (credentials creds)) as (t & b & Hrun).
    rewrite Hrun in *. simpl in *.
    destruct b; simpl.
    + split; [by eexists|]. split.
      * intros ? [= <-]. apply elem_of_cons. right.
        apply elem_of_app. by left.
      * intros _. exists creds. by rewrite Hrun.
    + split; [by eexists|]. split.
      * intros ? [= <-]. apply elem_of_cons. by right.
      * intros Hcalled. exfalso. apply Hcalled.
        unfold count in *. simpl. done.
Qed.
End FlagAndPathClaims.

Lemma exempt_match_is_exact_witness :
  (∃ rest,
     trace (@dispatch sample sample_middleware (bearer "/docs/" "tok.old")
              sample_next)
     = EvSecurity (bearer "/docs/" "tok.old") :: rest)
  ∧ (∀ creds, @security sample (bearer "/docs/" "tok.old") = inr creds →
       EvJwtDecode (credentials creds) (PUBLIC_KEY sample_middleware)
         [jwt_algorithm (auth_config sample_middleware)]
       ∈ trace (@dispatch sample sample_middleware (bearer "/docs/" "tok.old")
                  sample_next))
  ∧ (count is_call_next
       (trace (@dispatch sample sample_middleware (bearer "/docs/" "tok.old")
                 sample_next)) ≠ 0%nat →
     ∃ creds, @security sample (bearer "/docs/" "tok.old") = inr creds
              ∧ result (@_is_jwt_access_token_valid sample sample_middleware
                          (credentials creds))
                = Return true).
Proof.
  apply (@exempt_match_is_exact sample); discriminate.
Defined.

Example near_exempt_paths_are_guarded :
  result (@dispatch sample sample_middleware (mkRequest "/docs/" []) sample_next)
  = Return (JSONResponse 403 {[ "detail" := JStr "Not authenticated" ]})
  ∧ result (@dispatch sample sample_middleware
              (mkRequest "/docs/index.html" []) sample_next)
    = Return (JSONResponse 403 {[ "detail" := JStr "Not authenticated" ]})
  ∧ result (@dispatch sample sample_middleware
              (mkRequest "/openapi.json/" []) sample_next)
    = Return (JSONResponse 403 {[ "detail" := JStr "Not authenticated" ]})
  ∧ result (@dispatch sample sample_middleware
              (bearer "/docs/index.html" "garbage") sample_next)
    = Return invalid_token_response.
Proof. repeat split; by vm_compute. Qed.

(** With [enabled] false the gate still rejects what it rejects otherwise. *)
Example disabled_flag_still_enforces :
  result (@dispatch sample
            (mkJWTMiddleware "PUBLIC-KEY-A"
               (mkAuthenticationConfig false (Some "/keys/jwt.pub") (Some "RS256")))
            (bearer "/data" "garbage") sample_next)
  = Return invalid_token_response.
Proof. by vm_compute. Qed.

(** * Further properties of the code *)

(** ** config.py: when construction succeeds and what it reports *)

Section ConfigCoverage.
Context `{Externals}.

Lemma optional_field_ok_iff name kwargs (info_data : gmap string pyval) b v :
  info_data !! "enabled" = Some (PyBool b) →
  validate_optional_field name kwargs info_data = FieldOk v ↔
  validate_optional_str (default PyNone (kwargs !! name)) = Some v
  ∧ (b = true → is_Some v).
Proof.
  intros Hen. unfold validate_optional_field.
  destruct (validate_optional_str _) as [v0|]; [|split; [discriminate|by intros []]].
  unfold validate_optional_fields, data_enabled. rewrite Hen. simpl.
  rewrite bool_decide_eq_true_2 by (apply elem_of_dom; by eexists).
  destruct b, v0 as [s|]; simpl; split.
  - intros [= <-]. eauto.
  - by intros [[= <-] _].
  - discriminate.
  - intros [[= <-] Hsome]. by destruct (Hsome eq_refl).
  - intros [= <-]. split; [done|discriminate].
  - by intros [[= <-] _].
  - intros [= <-]. split; [done|discriminate].
  - by intros [[= <-] _].
Qed.

(** Without a validated [enabled] the validator lets every value through. *)
Lemma optional_field_unguarded name kwargs (info_data : gmap string pyval) v :
  info_data !! "enabled" = None →
  validate_optional_str (default PyNone (kwargs !! name)) = Some v →
  validate_optional_field name kwargs info_data = FieldOk v.
Proof.
  intros Hen Hv. unfold validate_optional_field. rewrite Hv.
  unfold validate_optional_fields.
  rewrite bool_decide_eq_false_2; [done|].
  rewrite elem_of_dom, Hen. by intros [].
Qed.

Lemma validate_enabled_ok kwargs b :
  validate_enabled kwargs = FieldOk b ↔
  ∃ v, kwargs !! "enabled" = Some v ∧ validate_bool v = Some b.
Proof.
  unfold validate_enabled. destruct (kwargs !! "enabled") as [v|].
  - destruct (validate_bool v) as [b'|] eqn:Hb; split.
    + intros [= <-]. eauto.
    + intros (? & [= <-] & ?). congruence.
    + discriminate.
    + intros (? & [= <-] & ?). congruence.
  - split; [discriminate|]. by intros (? & ? & _).
Qed.

(** The three field validations behind a construction. *)
Lemma init_fields kwargs cfg :
  AuthenticationConfig_init kwargs = inr cfg ↔
  validate_enabled kwargs = FieldOk (enabled cfg)
  ∧ validate_optional_field "public_key_path" kwargs
      {[ "enabled" := PyBool (enabled cfg) ]}
    = FieldOk (public_key_path cfg)
  ∧ validate_optional_field "jwt_algorithm" kwargs
      (<[ "public_key_path" := of_optional_str (public_key_path cfg) ]>
         {[ "enabled" := PyBool (enabled cfg) ]})
    = FieldOk (jwt_algorithm cfg).
Proof.
  unfold AuthenticationConfig_init. split.
  - intros Hinit.
    destruct (validate_enabled kwargs) as [e|msg|e] eqn:Hen; simpl in Hinit.
    2,3: destruct (validate_optional_field "public_key_path" kwargs _) as [k| |];
      destruct (validate_optional_field "jwt_algorithm" kwargs _) as [a| |];
      discriminate.
    change (<["enabled" := PyBool e]> (∅ : gmap string pyval))
      with ({[ "enabled" := PyBool e ]} : gmap string pyval) in Hinit.
    destruct (validate_optional_field "public_key_path" kwargs _)
      as [k| |] eqn:Hkey; simpl in Hinit;
      destruct (validate_optional_field "jwt_algorithm" kwargs _)
        as [a| |] eqn:Halg; simpl in Hinit; try discriminate.
    by injection Hinit as <-.
  - intros (Hen & Hkey & Halg). rewrite Hen. simpl.
    change (<["enabled" := PyBool (enabled cfg)]> (∅ : gmap string pyval))
      with ({[ "enabled" := PyBool (enabled cfg) ]} : gmap string pyval).
    rewrite Hkey. simpl. rewrite Halg. by destruct cfg.
Qed.

Lemma enabled_in_data (b : bool) (v : pyval) :
  (<[ "public_key_path" := v ]> ({[ "enabled" := PyBool b ]} : gmap string pyval))
    !! "enabled" = Some (PyBool b).
Proof. rewrite lookup_insert_ne by done. apply lookup_singleton_eq. Qed.
End ConfigCoverage.

Section ConfigExtras.
Context `{Externals}.

(** X1.  For keyword arguments that are [None], booleans, integers or
    strings: [AuthenticationConfig] is constructed exactly when [enabled] is
    given and pydantic reads it as a boolean, each of [public_key_path] and
    [jwt_algorithm] passes the validation of [Optional[str]] (it is left out,
    [None] or a string), and, if the boolean is true, neither is [None].  The
    fields of the configuration are then the validated values: the validator
    returns them unchanged. *)
Theorem config_built_exactly_when
    (kwargs : gmap string pyval) (cfg : AuthenticationConfig) :
  AuthenticationConfig_init kwargs = inr cfg ↔
  (∃ v, kwargs !! "enabled" = Some v ∧ validate_bool v = Some (enabled cfg))
  ∧ validate_optional_str (default PyNone (kwargs !! "public_key_path"))
    = Some (public_key_path cfg)
  ∧ validate_optional_str (default PyNone (kwargs !! "jwt_algorithm"))
    = Some (jwt_algorithm cfg)
  ∧ (enabled cfg = true →
     is_Some (public_key_path cfg) ∧ is_Some (jwt_algorithm cfg)).
Proof.
  rewrite init_fields, validate_enabled_ok.
  rewrite (optional_field_ok_iff "public_key_path" kwargs _ (enabled cfg))
    by apply lookup_singleton_eq.
  rewrite (optional_field_ok_iff "jwt_algorithm" kwargs _ (enabled cfg))
    by apply enabled_in_data.
  tauto.
Qed.

(** X2.  When [enabled] is left out or is not a boolean, construction fails
    and the first error reported is on [enabled]; the validator, which finds
    no ["enabled"] in [info.data], then asks nothing of the other two fields:
    if each is left out, [None] or a string, the error on [enabled] is the
    only one. *)
Theorem config_without_enabled_fails (kwargs : gmap string pyval) :
  kwargs !! "enabled" = None
  ∨ (∃ v, kwargs !! "enabled" = Some v ∧ validate_bool v = None) →
  (∃ msg errors,
     AuthenticationConfig_init kwargs
     = inl (ValidationError (("enabled", msg) :: errors)))
  ∧ (validate_optional_str (default PyNone (kwargs !! "public_key_path")) ≠ None →
     validate_optional_str (default PyNone (kwargs !! "jwt_algorithm")) ≠ None →
     ∃ msg, AuthenticationConfig_init kwargs
            = inl (ValidationError [("enabled", msg)])).
Proof.
  intros Hbad.
  assert (∃ msg, validate_enabled kwargs = FieldError msg) as [msg Hen].
  { unfold validate_enabled.
    destruct Hbad as [-> | (v & -> & ->)]; by eexists. }
  unfold AuthenticationConfig_init. rewrite Hen. simpl. split.
  - pose proof (optional_field_never_raises "public_key_path" kwargs ∅) as Hk.
    destruct (validate_optional_field "public_key_path" kwargs ∅)
      as [k|m|e] eqn:Hkey; [| |by destruct (Hk e)]; simpl.
    + pose proof (optional_field_never_raises "jwt_algorithm" kwargs
                    (<["public_key_path" := of_optional_str k]> ∅)) as Ha.
      destruct (validate_optional_field "jwt_algorithm" kwargs _)
        as [a|m|e]; [| |by destruct (Ha e)]; simpl; by do 2 eexists.
    + pose proof (optional_field_never_raises "jwt_algorithm" kwargs ∅) as Ha.
      destruct (validate_optional_field "jwt_algorithm" kwargs _)
        as [a|m'|e]; [| |by destruct (Ha e)]; simpl; by do 2 eexists.
  - intros Hkey Halg.
    destruct (validate_optional_str (default PyNone (kwargs !! "public_key_path")))
      as [k|] eqn:Hk; [|done].
    destruct (validate_optional_str (default PyNone (kwargs !! "jwt_algorithm")))
      as [a|] eqn:Ha; [|done].
    rewrite (optional_field_unguarded "public_key_path" kwargs ∅ k) by done.
    simpl.
    rewrite (optional_field_unguarded "jwt_algorithm" kwargs _ a); [|by rewrite lookup_insert_ne| done].
    by eexists.
Qed.

(** X3.  With [enabled] true and each of the two fields left out, [None] or
    a string, the errors of the construction name exactly the fields that are
    left out or [None], in the order of their declaration: one missing field
    does not hide the other, and there is no error when none is missing. *)
Theorem config_reports_each_missing_field (kwargs : gmap string pyval) :
  enabled_true kwargs →
  validate_optional_str (default PyNone (kwargs !! "public_key_path")) ≠ None →
  validate_optional_str (default PyNone (kwargs !! "jwt_algorithm")) ≠ None →
  let missing :=
    List.filter (λ name, bool_decide (default PyNone (kwargs !! name) = PyNone))
      ["public_key_path"; "jwt_algorithm"] in
  match AuthenticationConfig_init kwargs with
  | inr cfg => missing = []
  | inl (ValidationError errors) => errors.*1 = missing ∧ missing ≠ []
  | inl _ => False
  end.
Proof.
  intros (v & Hv & Hb) Hkey Halg.
  assert (Hen : validate_enabled kwargs = FieldOk true).
  { unfold validate_enabled. by rewrite Hv, Hb. }
  unfold AuthenticationConfig_init. rewrite Hen. simpl.
  change (<["enabled" := PyBool true]> (∅ : gmap string pyval))
    with ({[ "enabled" := PyBool true ]} : gmap string pyval).
  assert (Hcase : ∀ name (info_data : gmap string pyval),
            info_data !! "enabled" = Some (PyBool true) →
            validate_optional_str (default PyNone (kwargs !! name)) ≠ None →
            (default PyNone (kwargs !! name) = PyNone
             ∧ validate_optional_field name kwargs info_data
               = FieldError "Value error, Field required")
            ∨ (∃ s, default PyNone (kwargs !! name) = PyStr s
                    ∧ validate_optional_field name kwargs info_data
                      = FieldOk (Some s))).
  { intros name info_data Hd Hstr.
    destruct (default PyNone (kwargs !! name)) as [ |b|n|s] eqn:Hraw;
      simpl in Hstr; try done.
    - left. split; [done|]. by apply optional_field_required.
    - right. exists s. split; [done|].
      apply (optional_field_ok_iff name kwargs info_data true); [done|].
      rewrite Hraw. by split. }
  destruct (Hcase "public_key_path" {[ "enabled" := PyBool true ]}
              (lookup_singleton_eq _ _) Hkey) as [[Hk ->] | (sk & Hk & ->)];
    simpl.
  - destruct (Hcase "jwt_algorithm" {[ "enabled" := PyBool true ]}
                (lookup_singleton_eq _ _) Halg) as [[Ha ->] | (sa & Ha & ->)];
      simpl; rewrite Hk, Ha; simpl; done.
  - destruct (Hcase "jwt_algorithm"
                (<["public_key_path" := PyStr sk]> {[ "enabled" := PyBool true ]})
                (enabled_in_data true _) Halg) as [[Ha ->] | (sa & Ha & ->)];
      simpl; rewrite Hk, Ha; simpl; done.
Qed.
End ConfigExtras.

Lemma config_without_enabled_fails_witness :
  (∃ msg errors,
     @AuthenticationConfig_init sample {[ "enabled" := PyStr "maybe" ]}
     = inl (ValidationError (("enabled", msg) :: errors)))
  ∧ (validate_optional_str
       (default PyNone (({[ "enabled" := PyStr "maybe" ]} : gmap string pyval)
                          !! "public_key_path")) ≠ None →
     validate_optional_str
       (default PyNone (({[ "enabled" := PyStr "maybe" ]} : gmap string pyval)
                          !! "jwt_algorithm")) ≠ None →
     ∃ msg, @AuthenticationConfig_init sample {[ "enabled" := PyStr "maybe" ]}
            = inl (ValidationError [("enabled", msg)])).
Proof.
  apply (@config_without_enabled_fails sample).
  right. exists (PyStr "maybe"). split; reflexivity.
Defined.

Lemma config_reports_each_missing_field_witness :
  match @AuthenticationConfig_init sample
          {[ "enabled" := PyBool true; "jwt_algorithm" := PyNone ]} with
  | inr cfg =>
      List.filter
        (λ name, bool_decide
           (default PyNone
              (({[ "enabled" := PyBool true; "jwt_algorithm" := PyNone ]}
                : gmap string pyval) !! name) = PyNone))
        ["public_key_path"; "jwt_algorithm"] = []
  | inl (ValidationError errors) =>
      errors.*1
      = List.filter
          (λ name, bool_decide
             (default PyNone
                (({[ "enabled" := PyBool true; "jwt_algorithm" := PyNone ]}
                  : gmap string pyval) !! name) = PyNone))
          ["public_key_path"; "jwt_algorithm"]
      ∧ List.filter
          (λ name, bool_decide
             (default PyNone
                (({[ "enabled" := PyBool true; "jwt_algorithm" := PyNone ]}
                  : gmap string pyval) !! name) = PyNone))
          ["public_key_path"; "jwt_algorithm"] ≠ []
  | inl _ => False
  end.
Proof.
  apply (@config_reports_each_missing_field sample
           {[ "enabled" := PyBool true; "jwt_algorithm" := PyNone ]}).
  - exists (PyBool true). split; reflexivity.
  - by vm_compute.
  - by vm_compute.
Defined.

Example config_sample_constructions :
  @AuthenticationConfig_init sample {[ "enabled" := PyBool false ]}
  = inr (mkAuthenticationConfig false None None)
  ∧ @AuthenticationConfig_init sample ∅
    = inl (ValidationError [("enabled", "Field required")])
  ∧ @AuthenticationConfig_init sample {[ "enabled" := PyBool true ]}
    = inl (ValidationError [("public_key_path", "Value error, Field required");
                            ("jwt_algorithm", "Value error, Field required")])
  ∧ @AuthenticationConfig_init sample
      {[ "enabled" := PyBool false; "public_key_path" := PyInt 7 ]}
    = inl (ValidationError [("public_key_path", "Input should be a valid string")]).
Proof. repeat split; by vm_compute. Qed.

(** ** jwt_middleware.py: every way a dispatch can go *)

Section GateCoverage.
Context `{Externals}.

(** A guarded dispatch whose extractor gave credentials, by the verdict. *)
Lemma dispatch_verified self request call_next creds t b :
  url_path request ∉ exempt_paths →
  security request = inr creds →
  _is_jwt_access_token_valid self (credentials creds) = (t, Return b) →
  dispatch self request call_next
  = (EvSecurity request :: t ++ (if b then [EvCallNext request] else []),
     if b then call_next request else Return invalid_token_response).
Proof.
  intros Hpath Hsec Hrun. rewrite dispatch_guarded by done.
  unfold guarded_run. rewrite Hsec, Hrun. simpl.
  destruct b; [done|]. by rewrite app_nil_r.
Qed.

Lemma dispatch_extractor_raised self request call_next e :
  url_path request ∉ exempt_paths →
  security request = inl e →
  dispatch self request call_next
  = ([EvSecurity request],
     match e with
     | HTTPException status_code detail =>
         Return (JSONResponse status_code {[ "detail" := detail ]})
     | _ => Raise (Exc e)
     end).
Proof.
  intros Hpath Hsec. rewrite dispatch_guarded by done.
  unfold guarded_run. rewrite Hsec. by destruct e.
Qed.

Lemma count_guarded p request (t tail : list event) :
  count p (EvSecurity request :: t ++ tail)
  = (count p [EvSecurity request] + (count p t + count p tail))%nat.
Proof.
  change (EvSecurity request :: t ++ tail)
    with ([EvSecurity request] ++ (t ++ tail)).
  by rewrite !count_app.
Qed.

Lemma verify_counts self access_token :
  count is_jwt_decode (trace (_is_jwt_access_token_valid self access_token)) = 1%nat
  ∧ count is_call_next (trace (_is_jwt_access_token_valid self access_token)) = 0%nat
  ∧ count is_security (trace (_is_jwt_access_token_valid self access_token)) = 0%nat.
Proof.
  destruct (verify_trace self access_token) as (Hdec & _ & Hnext & Hsec).
  unfold count at 1. by rewrite Hdec.
Qed.

(** Under the contract of the library, a verifier whose configuration names
    no algorithm accepts nothing. *)
Lemma verify_without_algorithm (S : JwtSemantics) self access_token :
  decode_sound S →
  jwt_algorithm (auth_config self) = None →
  result (_is_jwt_access_token_valid self access_token) = Return false.
Proof.
  intros Hlib Hnone.
  destruct (verify_returns self access_token) as (t & b & Hrun).
  destruct b; [|by rewrite Hrun].
  assert (Htrue : result (_is_jwt_access_token_valid self access_token)
                  = Return true) by by rewrite Hrun.
  apply verify_true_decoded in Htrue as (payload & Hdec & _).
  destruct (Hlib _ _ _ _ Hdec) as (_ & _ & alg & _ & Hin).
  rewrite Hnone in Hin. apply list_elem_of_singleton in Hin. discriminate.
Qed.
End GateCoverage.

Section GateExtras.
Context `{Externals}.

(** X4.  On every request [dispatch] invokes the next handler at most once,
    and it invokes it exactly when the path is exempt or the extractor gave
    credentials that the verifier accepted. *)
Theorem dispatch_calls_next_at_most_once
    (self : JWTMiddleware) (request : Request)
    (call_next : Request → outcome Response) :
  (count is_call_next (trace (dispatch self request call_next)) ≤ 1)%nat
  ∧ (count is_call_next (trace (dispatch self request call_next)) = 1%nat ↔
     url_path request ∈ exempt_paths
     ∨ ∃ creds,
         security request = inr creds
         ∧ result (_is_jwt_access_token_valid self (credentials creds))
           = Return true).
Proof.
  destruct (decide (url_path request ∈ exempt_paths)) as [Hex|Hex].
  - rewrite dispatch_bypass by done. split; [done|]. split; [by left|done].
  - destruct (security request) as [e|creds] eqn:Hsec.
    + rewrite (dispatch_extractor_raised _ _ _ e) by done.
      split; [unfold count; simpl; lia|]. split; [discriminate|].
      intros [Hin | (creds & [=] & _)]. done.
    + destruct (verify_returns self (credentials creds)) as (t & b & Hrun).
      rewrite (dispatch_verified _ _ _ creds t b) by done.
      pose proof (verify_counts self (credentials creds)) as (_ & Hnext & _).
      rewrite Hrun in Hnext. simpl in Hnext. simpl.
      rewrite count_guarded, Hnext.
      destruct b; (split; [unfold count; simpl; lia|]); split.
      * intros _. right. exists creds. by rewrite Hrun.
      * done.
      * discriminate.
      * intros [Hin | (creds' & [= <-] & Htrue)]; [done|].
        rewrite Hrun in Htrue. discriminate.
Qed.

(** X5.  A dispatch ends in one of three ways.  It invoked the next handler
    once and ends as that handler did, response or exception, unchanged.  Or
    it did not invoke it and returns a JSON response whose content is the
    single key ["detail"]: status 403 with the invalid-token message, or the
    status and detail of the [HTTPException] of the extractor.  Or it did not
    invoke it and raises the exception of the extractor, which is not an
    [HTTPException]. *)
Theorem dispatch_outcome_cases
    (self : JWTMiddleware) (request : Request)
    (call_next : Request → outcome Response) :
  (count is_call_next (trace (dispatch self request call_next)) = 1%nat
   ∧ result (dispatch self request call_next) = call_next request)
  ∨ (count is_call_next (trace (dispatch self request call_next)) = 0%nat
     ∧ ∃ status_code detail,
         result (dispatch self request call_next)
         = Return (JSONResponse status_code {[ "detail" := detail ]})
         ∧ ((status_code = 403 ∧ detail = JStr "Invalid token or expired token")
            ∨ security request = inl (HTTPException status_code detail)))
  ∨ (count is_call_next (trace (dispatch self request call_next)) = 0%nat
     ∧ ∃ e, security request = inl e
            ∧ is_http_exception e = false
            ∧ result (dispatch self request call_next) = Raise (Exc e)).
Proof.
  destruct (decide (url_path request ∈ exempt_paths)) as [Hex|Hex].
  - left. by rewrite dispatch_bypass.
  - destruct (security request) as [e|creds] eqn:Hsec.
    + right. rewrite (dispatch_extractor_raised _ _ _ e) by done.
      destruct e; [left | right ..]; (split; [done|]);
        try (eexists; by repeat split).
      do 2 eexists. split; [done|]. by right.
    + destruct (verify_returns self (credentials creds)) as (t & b & Hrun).
      rewrite (dispatch_verified _ _ _ creds t b) by done.
      pose proof (verify_counts self (credentials creds)) as (_ & Hnext & _).
      rewrite Hrun in Hnext. simpl in Hnext. simpl.
      rewrite count_guarded, Hnext. destruct b.
      * by left.
      * right. left. split; [done|]. do 2 eexists. split; [done|]. by left.
Qed.

(** X6.  [dispatch] catches [HTTPException] only: when the extractor fails
    on a non-exempt path with any other exception, that exception leaves
    [dispatch]; no response is built, the verifier is not called and the next
    handler is not invoked. *)
Theorem dispatch_propagates_other_exceptions
    (self : JWTMiddleware) (request : Request)
    (call_next : Request → outcome Response) (e : exception) :
  url_path request ∉ exempt_paths →
  security request = inl e →
  is_http_exception e = false →
  dispatch self request call_next = ([EvSecurity request], Raise (Exc e)).
Proof.
  intros Hpath Hsec Hother.
  rewrite (dispatch_extractor_raised _ _ _ e) by done.
  by destruct e.
Qed.

(** X7.  How often a dispatch calls its collaborators: the extractor once on
    a non-exempt path and never on an exempt one; [jwt.decode] once when the
    path is not exempt and the extractor gave credentials, and never
    otherwise. *)
Theorem dispatch_collaborator_calls
    (self : JWTMiddleware) (request : Request)
    (call_next : Request → outcome Response) :
  count is_security (trace (dispatch self request call_next))
  = (if is_exempt (url_path request) then 0 else 1)%nat
  ∧ count is_jwt_decode (trace (dispatch self request call_next))
    = (if is_exempt (url_path request) then 0
       else match security request with inr _ => 1 | inl _ => 0 end)%nat.
Proof.
  unfold is_exempt. case_bool_decide as Hex.
  - by rewrite dispatch_bypass.
  - destruct (security request) as [e|creds] eqn:Hsec.
    + by rewrite (dispatch_extractor_raised _ _ _ e).
    + destruct (verify_returns self (credentials creds)) as (t & b & Hrun).
      rewrite (dispatch_verified _ _ _ creds t b) by done.
      pose proof (verify_counts self (credentials creds)) as (Hdec & _ & Hs).
      rewrite Hrun in Hdec, Hs. simpl in Hdec, Hs. simpl.
      rewrite !count_guarded, Hdec, Hs. by destruct b.
Qed.
End GateExtras.

Lemma dispatch_propagates_other_exceptions_witness :
  @dispatch broken_extractor sample_middleware (bearer "/data" "tok.user")
    sample_next
  = ([EvSecurity (bearer "/data" "tok.user")],
     Raise (Exc (OtherException "RuntimeError"))).
Proof.
  apply (@dispatch_propagates_other_exceptions broken_extractor).
  - apply not_exempt_iff. split; discriminate.
  - reflexivity.
  - reflexivity.
Defined.

(** ** jwt_middleware.py: logging, missing algorithm, construction *)

Section VerifierExtras.
Context `{Externals}.


(** X9.  A middleware whose configuration names no algorithm (which
    [AuthenticationConfig] allows when [enabled] is false) fails closed: with
    a JWT library that keeps its contract the verifier returns [False] on
    every token, and a dispatch on a non-exempt path never invokes the next
    handler. *)
Theorem missing_algorithm_rejects_everything
    (S : JwtSemantics) (self : JWTMiddleware) :
  decode_sound S →
  jwt_algorithm (auth_config self) = None →
  (∀ access_token,
     result (_is_jwt_access_token_valid self access_token) = Return false)
  ∧ (∀ request call_next,
       url_path request ∉ exempt_paths →
       count is_call_next (trace (dispatch self request call_next)) = 0%nat).
Proof.
  intros Hlib Hnone. split.
  - intros access_token. by apply (verify_without_algorithm S).
  - intros request call_next Hpath.
    destruct (security request) as [e|creds] eqn:Hsec.
    + by rewrite (dispatch_extractor_raised _ _ _ e).
    + destruct (verify_returns self (credentials creds)) as (t & b & Hrun).
      pose proof (verify_without_algorithm S self (credentials creds) Hlib Hnone)
        as Hfalse.
      rewrite Hrun in Hfalse. injection Hfalse as ->.
      rewrite (dispatch_verified _ _ _ creds t false) by done.
      pose proof (verify_counts self (credentials creds)) as (_ & Hnext & _).
      rewrite Hrun in Hnext. simpl in Hnext. simpl.
      by rewrite count_guarded, Hnext.
Qed.

(** X10.  From the keyword arguments to the library: when a configuration
    with [enabled] true is constructed, [create_jwt_middleware] opens the
    path that was given as [public_key_path], and if that file can be read,
    every call of [jwt.decode] in every dispatch of the middleware passes the
    contents of the file as the key and the one algorithm that was given as
    [jwt_algorithm]. *)
Theorem enabled_config_reaches_library
    (kwargs : gmap string pyval) (cfg : AuthenticationConfig) :
  AuthenticationConfig_init kwargs = inr cfg →
  enabled cfg = true →
  ∃ key alg,
    kwargs !! "public_key_path" = Some (PyStr key)
    ∧ kwargs !! "jwt_algorithm" = Some (PyStr alg)
    ∧ trace (create_jwt_middleware cfg) = [EvOpen (Some key)]
    ∧ ∀ content,
        open_read (Some key) = inr content →
        result (create_jwt_middleware cfg)
        = Return (mkJWTMiddleware content cfg)
        ∧ ∀ request call_next ev,
            ev ∈ trace (dispatch (mkJWTMiddleware content cfg) request call_next) →
            is_jwt_decode ev = true →
            ∃ token, ev = EvJwtDecode token content [Some alg].
Proof.
  intros Hinit Hen.
  apply init_fields in Hinit as (_ & Hkey & Halg). rewrite Hen in Hkey, Halg.
  apply optional_field_accepted in Hkey as (key & Hk & Hkw);
    [|apply lookup_singleton_eq].
  apply optional_field_accepted in Halg as (alg & Ha & Haw);
    [|apply enabled_in_data].
  exists key, alg. split; [done|]. split; [done|].
  rewrite create_unfold, Hk. split; [done|].
  intros content Hread. simpl. rewrite Hread. split; [done|].
  intros request call_next ev Hev Hdec.
  destruct (dispatch_uses_loaded_key (mkJWTMiddleware content cfg)
              request call_next) as [_ Hall].
  destruct (Hall ev Hev Hdec) as [token ->].
  exists token. simpl. by rewrite Ha.
Qed.

(** X11.  [create_jwt_middleware] turns into an exit exactly the
    [FileNotFoundError] of the read, with the message
    ["Cannot find public key: <the error>"]; any other exception of the read
    (no permission, a path that is [None]) leaves it unchanged, and it raises
    nothing else. *)
Theorem create_exits_only_on_missing_file (cfg : AuthenticationConfig) :
  (∀ code,
     result (create_jwt_middleware cfg) = Raise (SystemExit code) ↔
     ∃ msg, open_read (public_key_path cfg) = inl (FileNotFoundError msg)
            ∧ code = "Cannot find public key: " +:+ msg)
  ∧ (∀ e,
       result (create_jwt_middleware cfg) = Raise (Exc e) ↔
       open_read (public_key_path cfg) = inl e
       ∧ ∀ msg, e ≠ FileNotFoundError msg).
Proof.
  rewrite create_unfold. simpl.
  destruct (open_read (public_key_path cfg)) as [e|content]; split.
  - intros code. destruct e; split;
      try discriminate; try by intros (m & [=] & _).
    + intros [= <-]. by eexists.
    + by intros (m & [= <-] & ->).
  - intros e'. split.
    + intros Hr. destruct e; try discriminate Hr; injection Hr as <-;
        (split; [done | intros m; discriminate]).
    + intros [[= <-] Hne]. destruct e; try done. by destruct (Hne msg).
  - intros code. split; [discriminate|]. by intros (m & [=] & _).
  - intros e. split; [discriminate|]. by intros [[=] _].
Qed.
End VerifierExtras.

Lemma missing_algorithm_rejects_everything_witness :
  (∀ access_token,
     result (@_is_jwt_access_token_valid sample no_algorithm_middleware
               access_token) = Return false)
  ∧ (∀ request call_next,
       url_path request ∉ exempt_paths →
       count is_call_next
         (trace (@dispatch sample no_algorithm_middleware request call_next))
       = 0%nat).
Proof.
  apply (@missing_algorithm_rejects_everything sample
           (symbolic_semantics 1000 sample_issued)).
  - apply symbolic_decode_sound.
  - reflexivity.
Defined.

Lemma enabled_config_reaches_library_witness :
  ∃ key alg,
    ({[ "enabled" := PyBool true; "public_key_path" := PyStr "/keys/jwt.pub";
        "jwt_algorithm" := PyStr "RS256" ]} : gmap string pyval)
      !! "public_key_path" = Some (PyStr key)
    ∧ ({[ "enabled" := PyBool true; "public_key_path" := PyStr "/keys/jwt.pub";
          "jwt_algorithm" := PyStr "RS256" ]} : gmap string pyval)
        !! "jwt_algorithm" = Some (PyStr alg)
    ∧ trace (@create_jwt_middleware sample sample_config) = [EvOpen (Some key)]
    ∧ ∀ content,
        @open_read sample (Some key) = inr content →
        result (@create_jwt_middleware sample sample_config)
        = Return (mkJWTMiddleware content sample_config)
        ∧ ∀ request call_next ev,
            ev ∈ trace (@dispatch sample (mkJWTMiddleware content sample_config)
                          request call_next) →
            is_jwt_decode ev = true →
            ∃ token, ev = EvJwtDecode token content [Some alg].
Proof.
  apply (@enabled_config_reaches_library sample).
  - by vm_compute.
  - reflexivity.
Defined.

Example no_algorithm_sample_run :
  @dispatch sample no_algorithm_middleware (bearer "/data" "tok.user") sample_next
  = ([EvSecurity (bearer "/data" "tok.user");
      EvLogInfo "Checking if JWT access token is valid";
      EvJwtDecode "tok.user" "PUBLIC-KEY-A" [None];
      EvLogException "Error decoding JWT access token" InvalidAlgorithmError],
     Return invalid_token_response).
Proof. by vm_compute. Qed.
